(** * Shallow embedding of the company-search front-end (src/client/src/App.tsx)

    The root component [App] owns all React state.  Each [useState] hook is a
    field of [AppState]; each setter is a functional update of that record.
    Asynchronous work is modelled with explicit pending calls: an [async]
    function runs synchronously up to its first [await] (the "begin" half),
    and its continuation runs when the awaited promise settles (the "settle"
    half).  Overlapping [fetchCompanies] calls are kept in a list and may
    settle in any order, as network responses do.  After every event React
    re-renders: the filter effect runs if its dependencies changed, and the
    callback ref [lastCompanyRef] is re-invoked on the last card. *)

From stdpp Require Import base list gmap sets strings.
From Stdlib Require Import Ascii String.
Import ListNotations.
Open Scope string_scope.

(** ** Data model *)

(** [Company] (types/Company): opaque record owned by the API; only its
    identity matters to this component. *)
Record Company := mkCompany { company_id : string; company_name : string }.

#[global] Instance Company_eq_dec : EqDecision Company.
Proof. solve_decision. Defined.

(** [SearchFilters] (types/SearchFIlters). *)
Record SearchFilters := mkFilters { search : string; location : string }.

(** The session user returned by [useAuth]. *)
Record User := mkUser { user_name : string; profile_picture : string }.

(** Arguments of one [fetchCompanies(resetList, currentCursor, searchTerm,
    locationFilter)] call. *)
Record FetchCall := mkCall {
  resetList : bool;
  currentCursor : option string;
  searchTerm : string;
  locationFilter : string
}.

(** The values captured by the closure of the [IntersectionObserver]
    callback built inside [lastCompanyRef] (lines 129-133), and whether the
    observer was given a node to observe (line 135: [if (node) ...]). *)
Record Observer := mkObserver {
  cap_hasMore : bool;
  cap_cursor : option string;
  cap_search : string;
  cap_location : string;
  obs_target : bool
}.

(** The body of a [/search] response. *)
Record SearchResponse := mkResponse {
  companiesData : list Company;
  nextCursor : option string;
  resp_hasMore : bool
}.

(** Outcome of an awaited [fetch]/[res.json()] chain: a value, or a thrown
    error carrying a message. *)
Inductive Fetched (A : Type) :=
| FOk (a : A)
| FErr (msg : string).
Arguments FOk {A} a.
Arguments FErr {A} msg.

(** The component state: one field per [useState] hook of [App], the
    current [observer.current], the in-flight [fetchCompanies] calls, and
    the lines written by [console.error]. *)
Record AppState := mkState {
  companies : list Company;
  bookmarkedIds : gset string;
  locations : list string;
  loading : bool;
  cursor : option string;
  hasMore : bool;
  filters : SearchFilters;
  debouncedSearch : string;
  showLoginDialog : bool;
  user : option User;
  observer : option Observer;
  pending : list FetchCall;
  console : list string
}.

(** ** React setters *)

Definition setCompanies (s : AppState) (v : list Company) : AppState :=
  {| companies := v; bookmarkedIds := bookmarkedIds s; locations := locations s;
     loading := loading s; cursor := cursor s; hasMore := hasMore s;
     filters := filters s; debouncedSearch := debouncedSearch s;
     showLoginDialog := showLoginDialog s; user := user s;
     observer := observer s; pending := pending s; console := console s |}.

Definition setBookmarkedIds (s : AppState) (v : gset string) : AppState :=
  {| companies := companies s; bookmarkedIds := v; locations := locations s;
     loading := loading s; cursor := cursor s; hasMore := hasMore s;
     filters := filters s; debouncedSearch := debouncedSearch s;
     showLoginDialog := showLoginDialog s; user := user s;
     observer := observer s; pending := pending s; console := console s |}.

Definition setLocations (s : AppState) (v : list string) : AppState :=
  {| companies := companies s; bookmarkedIds := bookmarkedIds s; locations := v;
     loading := loading s; cursor := cursor s; hasMore := hasMore s;
     filters := filters s; debouncedSearch := debouncedSearch s;
     showLoginDialog := showLoginDialog s; user := user s;
     observer := observer s; pending := pending s; console := console s |}.

Definition setLoading (s : AppState) (v : bool) : AppState :=
  {| companies := companies s; bookmarkedIds := bookmarkedIds s; locations := locations s;
     loading := v; cursor := cursor s; hasMore := hasMore s;
     filters := filters s; debouncedSearch := debouncedSearch s;
     showLoginDialog := showLoginDialog s; user := user s;
     observer := observer s; pending := pending s; console := console s |}.

Definition setCursor (s : AppState) (v : option string) : AppState :=
  {| companies := companies s; bookmarkedIds := bookmarkedIds s; locations := locations s;
     loading := loading s; cursor := v; hasMore := hasMore s;
     filters := filters s; debouncedSearch := debouncedSearch s;
     showLoginDialog := showLoginDialog s; user := user s;
     observer := observer s; pending := pending s; console := console s |}.

Definition setHasMore (s : AppState) (v : bool) : AppState :=
  {| companies := companies s; bookmarkedIds := bookmarkedIds s; locations := locations s;
     loading := loading s; cursor := cursor s; hasMore := v;
     filters := filters s; debouncedSearch := debouncedSearch s;
     showLoginDialog := showLoginDialog s; user := user s;
     observer := observer s; pending := pending s; console := console s |}.

Definition setFilters (s : AppState) (v : SearchFilters) : AppState :=
  {| companies := companies s; bookmarkedIds := bookmarkedIds s; locations := locations s;
     loading := loading s; cursor := cursor s; hasMore := hasMore s;
     filters := v; debouncedSearch := debouncedSearch s;
     showLoginDialog := showLoginDialog s; user := user s;
     observer := observer s; pending := pending s; console := console s |}.

Definition setDebouncedSearch (s : AppState) (v : string) : AppState :=
  {| companies := companies s; bookmarkedIds := bookmarkedIds s; locations := locations s;
     loading := loading s; cursor := cursor s; hasMore := hasMore s;
     filters := filters s; debouncedSearch := v;
     showLoginDialog := showLoginDialog s; user := user s;
     observer := observer s; pending := pending s; console := console s |}.

Definition setShowLoginDialog (s : AppState) (v : bool) : AppState :=
  {| companies := companies s; bookmarkedIds := bookmarkedIds s; locations := locations s;
     loading := loading s; cursor := cursor s; hasMore := hasMore s;
     filters := filters s; debouncedSearch := debouncedSearch s;
     showLoginDialog := v; user := user s;
     observer := observer s; pending := pending s; console := console s |}.

Definition setObserver (s : AppState) (v : option Observer) : AppState :=
  {| companies := companies s; bookmarkedIds := bookmarkedIds s; locations := locations s;
     loading := loading s; cursor := cursor s; hasMore := hasMore s;
     filters := filters s; debouncedSearch := debouncedSearch s;
     showLoginDialog := showLoginDialog s; user := user s;
     observer := v; pending := pending s; console := console s |}.

Definition setPending (s : AppState) (v : list FetchCall) : AppState :=
  {| companies := companies s; bookmarkedIds := bookmarkedIds s; locations := locations s;
     loading := loading s; cursor := cursor s; hasMore := hasMore s;
     filters := filters s; debouncedSearch := debouncedSearch s;
     showLoginDialog := showLoginDialog s; user := user s;
     observer := observer s; pending := v; console := console s |}.

(** [console.error(msg, error)]: appended to the diagnostic channel. *)
Definition console_error (s : AppState) (msg : string) : AppState :=
  {| companies := companies s; bookmarkedIds := bookmarkedIds s; locations := locations s;
     loading := loading s; cursor := cursor s; hasMore := hasMore s;
     filters := filters s; debouncedSearch := debouncedSearch s;
     showLoginDialog := showLoginDialog s; user := user s;
     observer := observer s; pending := pending s; console := console s ++ [msg] |}.

(** ** [String.prototype.trim] and JS truthiness *)

(** JS white space and line terminators among the code units 0..255 that an
    [ascii] can hold: TAB, LF, VT, FF, CR, SPACE and NO-BREAK SPACE. *)
Definition is_js_space (c : ascii) : bool :=
  match nat_of_ascii c with
  | 9 | 10 | 11 | 12 | 13 | 32 | 160 => true
  | _ => false
  end.

Fixpoint drop_leading_space (l : list ascii) : list ascii :=
  match l with
  | [] => []
  | c :: l' => if is_js_space c then drop_leading_space l' else l
  end.

Definition trim (s : string) : string :=
  string_of_list_ascii
    (List.rev (drop_leading_space (List.rev (drop_leading_space (list_ascii_of_string s))))).

(** Truthiness of a [string] (empty string is falsy) and of [string | null]. *)
Definition truthy_string (s : string) : bool :=
  match s with EmptyString => false | _ => true end.

Definition truthy_nullable (o : option string) : bool :=
  match o with None => false | Some s => truthy_string s end.

(** The [URLSearchParams] built in [fetchCompanies] (lines 70-75), as its
    ordered list of (name, value) pairs.  [...(x && { k: v })] adds the key
    exactly when [x] is truthy. *)
Definition fetch_params (currentCursor : option string) (searchTerm locationFilter : string)
  : list (string * string) :=
  [("limit", "20")]
  ++ (match currentCursor with
      | Some c => if truthy_string c then [("cursor", c)] else []
      | None => []
      end)
  ++ (if truthy_string (trim searchTerm) then [("search", trim searchTerm)] else [])
  ++ (if truthy_string (trim locationFilter) then [("location", trim locationFilter)] else []).

Definition call_params (c : FetchCall) : list (string * string) :=
  fetch_params (currentCursor c) (searchTerm c) (locationFilter c).

(** ** [fetchCompanies] (lines 60-92) *)

(** Synchronous prefix, up to the first [await]: [setLoading(true)] and the
    request goes out. *)
Definition fetchCompanies_begin (c : FetchCall) (s : AppState) : AppState :=
  setPending (setLoading s true) (pending s ++ [c]).

(** Continuation once [fetch]/[res.json()] settle: the [try] body on
    success, the [catch] on a thrown error, and the [finally]. *)
Definition fetchCompanies_settle (c : FetchCall) (o : Fetched SearchResponse)
    (s : AppState) : AppState :=
  let s1 :=
    match o with
    | FOk data =>
        let s2 := setCompanies s
                    (if resetList c then companiesData data
                     else companies s ++ companiesData data) in
        let s3 := setCursor s2 (nextCursor data) in
        setHasMore s3 (resp_hasMore data)
    | FErr e => console_error s ("Error fetching companies:" ++ e)
    end in
  setLoading s1 false.

(** ** [fetchLocations] (lines 94-102) and [fetchBookmarks] (lines 35-45) *)

Definition fetchLocations_settle (o : Fetched (list string)) (s : AppState) : AppState :=
  match o with
  | FOk locs => setLocations s locs
  | FErr e => console_error s ("Error fetching locations:" ++ e)
  end.

(** [fetchBookmarks]: returns at once without a user; otherwise the awaited
    GET [/bookmarks] settles with [bookmarkedCompanyIds] or an error. *)
Definition fetchBookmarks (o : Fetched (list string)) (s : AppState) : AppState :=
  match user s with
  | None => s
  | Some _ =>
      match o with
      | FOk ids => setBookmarkedIds s (list_to_set ids)
      | FErr e => console_error s ("Failed to fetch bookmarks" ++ e)
      end
  end.

(** ** [handleBookmarkToggle] (lines 47-58) *)

Definition handleBookmarkToggle (id : string) (state : bool) (s : AppState) : AppState :=
  match user s with
  | None => setShowLoginDialog s true
  | Some _ =>
      let prev := bookmarkedIds s in
      setBookmarkedIds s (if state then {[id]} ∪ prev else prev ∖ {[id]})
  end.

(** ** Infinite scroll: [lastCompanyRef] (lines 123-145) *)

(** [lastCompanyRef(node)]: returns early while loading; otherwise the old
    observer is disconnected and a new one is built whose callback closes
    over the current [hasMore], [cursor], [debouncedSearch] and
    [filters.location], observing [node] if it is not null. *)
Definition lastCompanyRef (node : bool) (s : AppState) : AppState :=
  if loading s then s
  else setObserver s (Some {| cap_hasMore := hasMore s; cap_cursor := cursor s;
                              cap_search := debouncedSearch s;
                              cap_location := location (filters s);
                              obs_target := node |}).

(** The call the observer callback makes when its entry intersects
    (lines 130-131), if any. *)
Definition observer_call (s : AppState) : option FetchCall :=
  match observer s with
  | Some o =>
      if obs_target o && cap_hasMore o
      then Some {| resetList := false; currentCursor := cap_cursor o;
                   searchTerm := cap_search o; locationFilter := cap_location o |}
      else None
  | None => None
  end.

Definition on_intersect (s : AppState) : AppState :=
  match observer_call s with
  | Some c => fetchCompanies_begin c s
  | None => s
  end.

(** ** The filter effect (lines 104-108) *)

Definition filter_effect (s : AppState) : AppState :=
  let s1 := setHasMore (setCursor s None) true in
  fetchCompanies_begin {| resetList := true; currentCursor := None;
                          searchTerm := debouncedSearch s;
                          locationFilter := location (filters s) |} s1.

(** Dependencies of that effect: [debouncedSearch] and [filters.location]. *)
Definition filter_deps (s : AppState) : string * string :=
  (debouncedSearch s, location (filters s)).

Definition deps_changed (s s' : AppState) : bool :=
  if decide (filter_deps s = filter_deps s') then false else true.

(** ** Events and the render cycle *)

Inductive Event :=
| ESearchInput (q : string)          (** [handleSearchChange] *)
| EDebounce                          (** the 300 ms [useDebounce] timer fires *)
| ELocation (l : string)             (** [handleLocationChange] *)
| EIntersect                         (** the observed card enters the viewport *)
| EResolve (i : nat) (o : Fetched SearchResponse)
                                     (** the i-th in-flight [fetchCompanies] settles *)
| EToggle (id : string) (state : bool).  (** [onBookmarkToggle] of a card *)

Definition handle (s : AppState) (e : Event) : AppState :=
  match e with
  | ESearchInput q => setFilters s {| search := q; location := location (filters s) |}
  | EDebounce => setDebouncedSearch s (search (filters s))
  | ELocation l => setFilters s {| search := search (filters s); location := l |}
  | EIntersect => on_intersect s
  | EResolve i o =>
      match pending s !! i with
      | Some c => fetchCompanies_settle c o (setPending s (delete i (pending s)))
      | None => s
      end
  | EToggle id st => handleBookmarkToggle id st s
  end.

(** Commit of a render: the callback ref is (re-)invoked on the last card,
    whose node exists iff the list is non-empty. *)
Definition commit (s : AppState) : AppState :=
  lastCompanyRef (match companies s with [] => false | _ => true end) s.

(** One event, then the re-render: effects whose dependencies changed run,
    then the ref callback. *)
Definition step (s : AppState) (e : Event) : AppState :=
  let s1 := handle s e in
  let s2 := if deps_changed s s1 then filter_effect s1 else s1 in
  commit s2.

Definition run (s : AppState) (es : list Event) : AppState := fold_left step es s.

(** Initial [useState] values. *)
Definition initial_state (u : option User) : AppState :=
  {| companies := []; bookmarkedIds := ∅; locations := []; loading := false;
     cursor := None; hasMore := true; filters := {| search := ""; location := "" |};
     debouncedSearch := ""; showLoginDialog := false; user := u;
     observer := None; pending := []; console := [] |}.

(** Mount: the effects run in declaration order, the filter effect
    (line 104) and then the initial load [fetchCompanies(true)] (line 112)
    with its default arguments. *)
Definition mount (u : option User) : AppState :=
  let s1 := filter_effect (initial_state u) in
  let s2 := fetchCompanies_begin {| resetList := true; currentCursor := None;
                                    searchTerm := ""; locationFilter := "" |} s1 in
  commit s2.

Open Scope list_scope.

(** ** Sanity examples *)

Example trim_example : trim "  acme	" = "acme".
Proof. reflexivity. Qed.

Example params_example :
  fetch_params (Some "c1") " acme " "" = [("limit", "20"); ("cursor", "c1"); ("search", "acme")].
Proof. reflexivity. Qed.

Example mount_pending :
  pending (mount None) =
    [{| resetList := true; currentCursor := None; searchTerm := ""; locationFilter := "" |};
     {| resetList := true; currentCursor := None; searchTerm := ""; locationFilter := "" |}]
  /\ loading (mount None) = true.
Proof. split; reflexivity. Qed.

(** ** Helper lemmas *)

Lemma truthy_string_false (s : string) : truthy_string s = false <-> s = "".
Proof. destruct s; simpl; split; congruence. Qed.

Lemma truthy_string_true (s : string) : truthy_string s = true <-> s <> "".
Proof. destruct s; simpl; split; congruence. Qed.

(** ** C2: a successful [fetchCompanies] replaces or appends, and takes
    [nextCursor] and [hasMore] from the response *)

(** C2: on success, [companies] becomes [companiesData] when [resetList]
    holds and [companies ++ companiesData] otherwise; [cursor] becomes
    [nextCursor] and [hasMore] the response's [hasMore]. *)
Theorem fetchCompanies_success_updates (c : FetchCall) (data : SearchResponse) (s : AppState) :
  let s' := fetchCompanies_settle c (FOk data) s in
  companies s' = (if resetList c then companiesData data else app (companies s) (companiesData data))
  /\ cursor s' = nextCursor data
  /\ hasMore s' = resp_hasMore data.
Proof. simpl. repeat split. Qed.

(** ** C5 and C6: bookmark toggling *)

(** C5: without a user session, [handleBookmarkToggle] leaves the bookmark
    set unchanged and opens the login dialog. *)
Theorem toggle_logged_out (id : string) (st : bool) (s : AppState) :
  user s = None ->
  bookmarkedIds (handleBookmarkToggle id st s) = bookmarkedIds s
  /\ showLoginDialog (handleBookmarkToggle id st s) = true.
Proof. intros Hu. unfold handleBookmarkToggle. rewrite Hu. split; reflexivity. Qed.

Lemma toggle_logged_out_witness :
  user (initial_state None) = None
  /\ bookmarkedIds (handleBookmarkToggle "7" true (initial_state None)) = bookmarkedIds (initial_state None)
  /\ showLoginDialog (handleBookmarkToggle "7" true (initial_state None)) = true.
Proof.
  split; [reflexivity|].
  apply (toggle_logged_out "7" true (initial_state None)). reflexivity.
Defined.

(** C6: with a user session, after [handleBookmarkToggle id state] the id is
    in the set iff [state] is true, and every other id keeps its
    membership. *)
Theorem toggle_logged_in_frame (id : string) (st : bool) (s : AppState) (u : User) :
  user s = Some u ->
  (id ∈ bookmarkedIds (handleBookmarkToggle id st s) <-> st = true)
  /\ (forall j, j <> id ->
        (j ∈ bookmarkedIds (handleBookmarkToggle id st s) <-> j ∈ bookmarkedIds s)).
Proof.
  intros Hu. unfold handleBookmarkToggle. rewrite Hu. simpl.
  destruct st; split.
  - split; [done | set_solver].
  - intros j Hj. set_solver.
  - split; [set_solver | discriminate].
  - intros j Hj. set_solver.
Qed.

Lemma toggle_logged_in_frame_witness :
  (("7" ∈ bookmarkedIds (handleBookmarkToggle "7" false
        (setBookmarkedIds (initial_state (Some (mkUser "ada" ""))) {["7"; "8"]})) <-> false = true)
   /\ (forall j, j <> "7" ->
        (j ∈ bookmarkedIds (handleBookmarkToggle "7" false
              (setBookmarkedIds (initial_state (Some (mkUser "ada" ""))) {["7"; "8"]}))
         <-> j ∈ bookmarkedIds (setBookmarkedIds (initial_state (Some (mkUser "ada" ""))) {["7"; "8"]})))).
Proof.
  apply (toggle_logged_in_frame "7" false _ (mkUser "ada" "")). reflexivity.
Defined.

(** ** C7: errors are swallowed and leave the state intact *)

(** C7: when the awaited request or its JSON parsing throws, the settle of
    [fetchCompanies] is a plain state (the error does not escape), it logs
    the error, and keeps [companies], [cursor] and [hasMore]; likewise
    [fetchLocations] keeps [locations] and [fetchBookmarks] keeps
    [bookmarkedIds]. *)
Theorem fetch_errors_preserve_state (c : FetchCall) (e : string) (s : AppState) :
  let s' := fetchCompanies_settle c (FErr e) s in
  companies s' = companies s /\ cursor s' = cursor s /\ hasMore s' = hasMore s
  /\ console s' = app (console s) [String.append "Error fetching companies:" e]
  /\ locations (fetchLocations_settle (FErr e) s) = locations s
  /\ bookmarkedIds (fetchBookmarks (FErr e) s) = bookmarkedIds s.
Proof.
  simpl. repeat split.
  unfold fetchBookmarks. destruct (user s); reflexivity.
Qed.

(** ** C8: the loading flag brackets every call *)

(** C8: [fetchCompanies] sets [loading] to true before its request and its
    settle sets it back to false on success and on error alike. *)
Theorem fetchCompanies_loading_bracket (c : FetchCall) (s t : AppState) (o : Fetched SearchResponse) :
  loading (fetchCompanies_begin c s) = true
  /\ loading (fetchCompanies_settle c o t) = false.
Proof. split; [reflexivity|]. destruct o; reflexivity. Qed.

(** ** C10: the query string of [fetchCompanies] *)

(** The claim as written: [limit=20] always, a [cursor] parameter iff the
    cursor argument is non-null, and [search]/[location] iff the trimmed
    argument is non-empty, sent trimmed. *)
Definition params_claim_as_written : Prop :=
  forall (cur : option string) (q l : string),
    let ps := fetch_params cur q l in
    In ("limit", "20") ps
    /\ ((exists v, In ("cursor", v) ps) <-> cur <> None)
    /\ (forall v, In ("search", v) ps <-> trim q <> "" /\ v = trim q)
    /\ (forall v, In ("location", v) ps <-> trim l <> "" /\ v = trim l).

(** C10 (counterexample): a non-null but empty cursor [""] is falsy in
    [currentCursor && { cursor: currentCursor }], so no [cursor] parameter
    is sent. *)
Lemma params_empty_cursor_dropped :
  fetch_params (Some "") "" "" = [("limit", "20")] /\ ~ params_claim_as_written.
Proof.
  split; [reflexivity|].
  intros H. destruct (H (Some "") "" "") as (_ & Hc & _).
  destruct (proj2 Hc ltac:(discriminate)) as [v Hv].
  simpl in Hv. destruct Hv as [Hv | []]. discriminate.
Qed.

(** Membership in the parameter list, key by key. *)
Lemma in_fetch_params (k v : string) (cur : option string) (q l : string) :
  In (k, v) (fetch_params cur q l) <->
    (k = "limit" /\ v = "20")
    \/ (k = "cursor" /\ cur = Some v /\ v <> "")
    \/ (k = "search" /\ trim q <> "" /\ v = trim q)
    \/ (k = "location" /\ trim l <> "" /\ v = trim l).
Proof.
  unfold fetch_params.
  destruct cur as [c|]; [destruct (truthy_string c) eqn:Ec|];
  destruct (truthy_string (trim q)) eqn:Eq; destruct (truthy_string (trim l)) eqn:El;
  rewrite ?truthy_string_true, ?truthy_string_false in *; simpl;
  (split;
   [ intros H; repeat destruct H as [H | H]; try contradiction;
     injection H as <- <-; intuition congruence
   | intros H; repeat destruct H as [H | H]; destruct H as (-> & H);
     subst; intuition congruence ]).
Qed.

(** C10 (amended): the parameters always contain [limit=20]; they contain
    [cursor=v] iff the cursor argument is [v], non-null and non-empty; and
    [search] (resp. [location]) iff the trimmed argument is non-empty, with
    the trimmed value. *)
Theorem fetch_params_spec (cur : option string) (q l : string) :
  let ps := fetch_params cur q l in
  In ("limit", "20") ps
  /\ (forall v, In ("cursor", v) ps <-> cur = Some v /\ v <> "")
  /\ (forall v, In ("search", v) ps <-> trim q <> "" /\ v = trim q)
  /\ (forall v, In ("location", v) ps <-> trim l <> "" /\ v = trim l).
Proof.
  cbv zeta. repeat split; intros;
  repeat match goal with
  | H : In _ _ |- _ => apply in_fetch_params in H
  | |- In _ _ => apply in_fetch_params
  end; intuition (try discriminate; auto).
Qed.

(** ** Field-preservation lemmas for the render cycle *)

Lemma commit_fields (s : AppState) :
  companies (commit s) = companies s /\ loading (commit s) = loading s
  /\ cursor (commit s) = cursor s /\ hasMore (commit s) = hasMore s
  /\ pending (commit s) = pending s /\ filter_deps (commit s) = filter_deps s.
Proof. unfold commit, lastCompanyRef. destruct (loading s) eqn:E; repeat split; simpl; auto. Qed.

Lemma filter_deps_step (s : AppState) (e : Event) :
  filter_deps (step s e) = filter_deps (handle s e).
Proof.
  unfold step. rewrite (proj2 (proj2 (proj2 (proj2 (proj2 (commit_fields _)))))).
  destruct (deps_changed s (handle s e)); reflexivity.
Qed.

Lemma deps_changed_false (s s' : AppState) :
  filter_deps s' = filter_deps s -> deps_changed s s' = false.
Proof. intros H. unfold deps_changed. rewrite H. destruct (decide _); congruence. Qed.

Lemma handle_resolve_deps (s : AppState) (i : nat) (o : Fetched SearchResponse) :
  filter_deps (handle s (EResolve i o)) = filter_deps s.
Proof.
  simpl. destruct (pending s !! i); [|reflexivity].
  unfold fetchCompanies_settle. destruct o; reflexivity.
Qed.

Lemma handle_intersect_deps (s : AppState) :
  filter_deps (handle s EIntersect) = filter_deps s.
Proof. simpl. unfold on_intersect. destruct (observer_call s); reflexivity. Qed.

(** Completing the i-th in-flight call through the event loop is its settle. *)
Lemma step_resolve (t : AppState) (i : nat) (c : FetchCall) (o : Fetched SearchResponse) :
  pending t !! i = Some c ->
  companies (step t (EResolve i o)) = companies (fetchCompanies_settle c o (setPending t (delete i (pending t))))
  /\ hasMore (step t (EResolve i o)) = hasMore (fetchCompanies_settle c o (setPending t (delete i (pending t)))).
Proof.
  intros Hc. unfold step. rewrite deps_changed_false by apply handle_resolve_deps.
  pose proof (commit_fields (handle t (EResolve i o))) as (H1 & _ & _ & H4 & _).
  rewrite H1, H4. simpl. rewrite Hc. split; reflexivity.
Qed.

(** ** The observer invariant

    While the observer may be stale (the ref returns early during loading),
    it never offers a next-page call when [hasMore] is false. *)
Definition obs_inv (s : AppState) : Prop :=
  hasMore s = false -> observer_call s = None.

Lemma commit_obs_inv (s : AppState) :
  (obs_inv s \/ loading s = false) -> obs_inv (commit s).
Proof.
  unfold commit, lastCompanyRef, obs_inv, observer_call.
  destruct (loading s) eqn:E; simpl.
  - intros [H | H]; [exact H | discriminate].
  - intros _ Hm. rewrite Hm. destruct (companies s); reflexivity.
Qed.

Lemma handle_obs_inv (s : AppState) (e : Event) :
  obs_inv s -> obs_inv (handle s e) \/ loading (handle s e) = false.
Proof.
  intros H. destruct e; simpl.
  - left. exact H.
  - left. exact H.
  - left. exact H.
  - left. unfold on_intersect. destruct (observer_call s) eqn:E; [|exact H].
    intros Hm. apply H in Hm. congruence.
  - destruct (pending s !! i); [|left; exact H].
    right. unfold fetchCompanies_settle. destruct o; reflexivity.
  - left. unfold handleBookmarkToggle. destruct (user s); exact H.
Qed.

Lemma step_obs_inv (s : AppState) (e : Event) : obs_inv s -> obs_inv (step s e).
Proof.
  intros H. unfold step. apply commit_obs_inv.
  destruct (deps_changed s (handle s e)).
  - left. intros Hm. discriminate Hm.
  - apply handle_obs_inv. exact H.
Qed.

Lemma run_obs_inv (s : AppState) (es : list Event) : obs_inv s -> obs_inv (run s es).
Proof.
  revert s. induction es as [|e es IH]; intros s H; simpl; [exact H|].
  apply IH. apply step_obs_inv. exact H.
Qed.

Lemma mount_obs_inv (u : option User) : obs_inv (mount u).
Proof. intros _. reflexivity. Qed.

(** Concrete companies and pages used by the witnesses below. *)
Definition acme : Company := mkCompany "1" "Acme".
Definition beta : Company := mkCompany "2" "Beta".

Definition page1 : Fetched SearchResponse :=
  FOk {| companiesData := [acme]; nextCursor := Some "c1"; resp_hasMore := true |}.
Definition page2 : Fetched SearchResponse :=
  FOk {| companiesData := [beta]; nextCursor := None; resp_hasMore := false |}.
Definition last_page : Fetched SearchResponse :=
  FOk {| companiesData := [acme]; nextCursor := None; resp_hasMore := false |}.

(** ** C3: no fetch from scrolling once [hasMore] is false *)

(** C3: in every state reachable from mount, if [hasMore] is false, the
    observer callback fired by the last card intersecting issues no
    [fetchCompanies] call: the state is unchanged and no call is added to
    the in-flight ones. *)
Theorem no_fetch_when_exhausted (u : option User) (es : list Event) :
  let s := run (mount u) es in
  hasMore s = false ->
  on_intersect s = s /\ pending (step s EIntersect) = pending s.
Proof.
  cbv zeta. intros Hm.
  pose proof (run_obs_inv (mount u) es (mount_obs_inv u) Hm) as Hn.
  assert (Hi : on_intersect (run (mount u) es) = run (mount u) es).
  { unfold on_intersect. rewrite Hn. reflexivity. }
  split; [exact Hi|].
  unfold step. rewrite deps_changed_false by apply handle_intersect_deps.
  rewrite (proj1 (proj2 (proj2 (proj2 (proj2 (commit_fields _)))))).
  simpl. rewrite Hi. reflexivity.
Qed.

Lemma no_fetch_when_exhausted_witness :
  let s := run (mount None) [EResolve 0 last_page; EResolve 0 last_page] in
  hasMore s = false /\ on_intersect s = s /\ pending (step s EIntersect) = pending s.
Proof.
  cbv zeta. split; [vm_compute; reflexivity|].
  apply (no_fetch_when_exhausted None [EResolve 0 last_page; EResolve 0 last_page]).
  vm_compute. reflexivity.
Defined.

(** ** C4: scroll-triggered fetches append *)

(** C4: a call issued by the observer callback has [resetList = false] and
    is added to the in-flight calls; whenever it later completes with items
    disjoint from the current list, the list becomes the current list
    followed by the new items: every item already shown stays, in order, as
    a prefix, and keeps its number of occurrences (nothing duplicated or
    dropped). *)
Theorem scroll_fetch_appends (s : AppState) (c : FetchCall) :
  observer_call s = Some c ->
  resetList c = false
  /\ pending (step s EIntersect) = pending s ++ [c]
  /\ (forall (t : AppState) (i : nat) (data : SearchResponse),
        pending t !! i = Some c ->
        (forall x, In x (companiesData data) -> ~ In x (companies t)) ->
        let t' := step t (EResolve i (FOk data)) in
        companies t' = companies t ++ companiesData data
        /\ (forall x, In x (companies t) ->
              count_occ (decide_rel (=)) (companies t') x
              = count_occ (decide_rel (=)) (companies t) x)).
Proof.
  intros Hc.
  assert (Hr : resetList c = false).
  { unfold observer_call in Hc. destruct (observer s) as [o|]; [|discriminate].
    destruct (obs_target o && cap_hasMore o); [|discriminate].
    injection Hc as <-. reflexivity. }
  split; [exact Hr|]. split.
  - unfold step. rewrite deps_changed_false by apply handle_intersect_deps.
    rewrite (proj1 (proj2 (proj2 (proj2 (proj2 (commit_fields _)))))).
    simpl. unfold on_intersect. rewrite Hc. reflexivity.
  - intros t i data Hi Hdisj. cbv zeta.
    assert (Heq : companies (step t (EResolve i (FOk data))) = companies t ++ companiesData data).
    { rewrite (proj1 (step_resolve t i c (FOk data) Hi)). simpl. rewrite Hr. reflexivity. }
    split; [exact Heq|].
    intros x Hx. rewrite Heq, count_occ_app.
    assert (H0 : count_occ (decide_rel (=)) (companiesData data) x = 0).
    { apply count_occ_not_In. intros Hin. exact (Hdisj x Hin Hx). }
    rewrite H0. lia.
Qed.

Lemma scroll_fetch_appends_witness :
  let s := run (mount None) [EResolve 0 page1] in
  let c := {| resetList := false; currentCursor := Some "c1"; searchTerm := ""; locationFilter := "" |} in
  let t := step s EIntersect in
  let data := {| companiesData := [beta]; nextCursor := None; resp_hasMore := false |} in
  observer_call s = Some c /\ pending t !! 1 = Some c
  /\ companies (step t (EResolve 1 (FOk data))) = companies t ++ companiesData data.
Proof.
  cbv zeta. split; [vm_compute; reflexivity|]. split; [vm_compute; reflexivity|].
  destruct (scroll_fetch_appends (run (mount None) [EResolve 0 page1])
              (mkCall false (Some "c1") "" "") ltac:(vm_compute; reflexivity)) as (_ & _ & H).
  refine (proj1 (H _ 1 _ _ _)).
  - vm_compute. reflexivity.
  - vm_compute. intros x [<- | []] [Hx | []]. discriminate Hx.
Defined.

(** ** C9: [hasMore] under fixed filters *)

(** The events [es] run from [s] never change the filter effect's
    dependencies. *)
Fixpoint fixed_filters (s : AppState) (es : list Event) : bool :=
  match es with
  | [] => true
  | e :: es' => bool_decide (filter_deps (step s e) = filter_deps s) && fixed_filters (step s e) es'
  end.

(** The claim as written: once a completed fetch has set [hasMore] to
    false, no later event under the same filters sets it back to true. *)
Definition hasMore_monotone_as_written : Prop :=
  forall (u : option User) (es1 es2 : list Event),
    let s := run (mount u) es1 in
    hasMore s = false -> fixed_filters s es2 = true -> hasMore (run s es2) = false.

(** C9 (counterexample): the two reset calls issued at mount (the filter
    effect and the initial load) are both in flight; the first completes
    with page 1, a scroll fetches page 2, which is the last ([hasMore]
    false); then the second initial reset call completes with page 1 again
    and sets [hasMore] back to true, with the filters never changed. *)
Lemma hasMore_reopened_by_late_reset :
  let s := run (mount None) [EResolve 0 page1; EIntersect; EResolve 1 page2] in
  hasMore s = false
  /\ companies s = [acme; beta]
  /\ fixed_filters s [EResolve 0 page1] = true
  /\ hasMore (run s [EResolve 0 page1]) = true
  /\ companies (run s [EResolve 0 page1]) = [acme]
  /\ ~ hasMore_monotone_as_written.
Proof.
  cbv zeta.
  refine (conj _ (conj _ (conj _ (conj _ (conj _ _))))); [vm_compute; reflexivity ..|].
  intros H.
  pose proof (H None [EResolve 0 page1; EIntersect; EResolve 1 page2] [EResolve 0 page1]) as H'.
  cbv zeta in H'. vm_compute in H'.
  discriminate (H' eq_refl eq_refl).
Qed.

(** One event with no filter change from an idle, exhausted state. *)
Lemma idle_step (s : AppState) (e : Event) :
  obs_inv s -> hasMore s = false -> pending s = [] ->
  filter_deps (handle s e) = filter_deps s ->
  hasMore (step s e) = false /\ pending (step s e) = [].
Proof.
  intros Hinv Hm Hp Hd. unfold step. rewrite deps_changed_false by exact Hd.
  destruct (commit_fields (handle s e)) as (_ & _ & _ & H4 & H5 & _). rewrite H4, H5.
  destruct e; simpl; try (split; assumption).
  - unfold on_intersect. rewrite (Hinv Hm). split; assumption.
  - rewrite Hp. simpl. split; assumption.
  - unfold handleBookmarkToggle. destruct (user s); split; assumption.
Qed.

(** C9 (amended): once [hasMore] is false with no [fetchCompanies] call in
    flight, it stays false, and no call is issued, for as long as the
    filters do not change. *)
Theorem hasMore_stays_false_when_idle (u : option User) (es1 es2 : list Event) :
  let s := run (mount u) es1 in
  hasMore s = false -> pending s = [] -> fixed_filters s es2 = true ->
  hasMore (run s es2) = false /\ pending (run s es2) = [].
Proof.
  cbv zeta.
  pose proof (run_obs_inv (mount u) es1 (mount_obs_inv u)) as Hinv.
  generalize dependent (run (mount u) es1). clear es1.
  induction es2 as [|e es IH]; intros s Hinv Hm Hp Hf; simpl; [auto|].
  simpl in Hf. apply andb_prop in Hf as [Hd Hf]. apply bool_decide_eq_true in Hd.
  rewrite filter_deps_step in Hd.
  destruct (idle_step s e Hinv Hm Hp Hd) as [Hm' Hp'].
  apply IH; [apply step_obs_inv; exact Hinv | exact Hm' | exact Hp' | exact Hf].
Qed.

Lemma hasMore_stays_false_when_idle_witness :
  let s := run (mount None) [EResolve 0 last_page; EResolve 0 last_page] in
  hasMore (run s [EIntersect; EToggle "1" true; ESearchInput "ac"]) = false
  /\ pending (run s [EIntersect; EToggle "1" true; ESearchInput "ac"]) = [].
Proof.
  cbv zeta.
  apply (hasMore_stays_false_when_idle None [EResolve 0 last_page; EResolve 0 last_page]
           [EIntersect; EToggle "1" true; ESearchInput "ac"]);
  vm_compute; reflexivity.
Defined.

(** ** C1: filter changes and the pagination reset *)





(** * Rendering of the home page (lines 155-248) *)

(** Decimal rendering of a non-negative count, as a template literal
    renders [companies.length]. *)
Fixpoint nat_digits (fuel n : nat) (acc : string) : string :=
  match fuel with
  | 0 => acc
  | S f =>
      let acc' := String (ascii_of_nat (48 + n mod 10)) acc in
      if Nat.ltb n 10 then acc' else nat_digits f (n / 10) acc'
  end.

Definition js_number_string (n : nat) : string := nat_digits (S n) n "".

(** [Array.prototype.join] on strings. *)
Fixpoint join (sep : string) (l : list string) : string :=
  match l with
  | [] => ""
  | [x] => x
  | x :: l' => String.append x (String.append sep (join sep l'))
  end.

(** The double-quote character of the template literal on line 159. *)
Definition dquote : string := String (ascii_of_nat 34) EmptyString.

(** [resultsInfo] (lines 155-167). *)
Definition resultsInfo (s : AppState) : string :=
  let hasFilters := truthy_string (search (filters s)) || truthy_string (location (filters s)) in
  let filterText :=
    (if truthy_string (search (filters s))
     then [String.append dquote (String.append (search (filters s)) dquote)] else [])
    ++ (if truthy_string (location (filters s))
        then [String.append "in " (location (filters s))] else []) in
  if hasFilters
  then String.append "Showing results for "
         (String.append (join " " filterText)
            (String.append " • "
               (String.append (js_number_string (List.length (companies s))) " companies found")))
  else String.append (js_number_string (List.length (companies s))) " companies".

(** The props given to each [CompanyCard] (lines 216-225): [isLast], whether
    [lastCompanyRef] is passed as its [ref], and [isBookmarked]. *)
Record CardProps := mkCard {
  card_company : Company;
  card_isLast : bool;
  card_has_ref : bool;
  card_isBookmarked : bool
}.

Definition render_cards (s : AppState) : list CardProps :=
  imap (fun index company =>
          {| card_company := company;
             card_isLast := Nat.eqb index (List.length (companies s) - 1);
             card_has_ref := Nat.eqb index (List.length (companies s) - 1);
             card_isBookmarked := bool_decide (company_id company ∈ bookmarkedIds s) |})
       (companies s).

(** The three conditional blocks under the list (lines 228-248). *)
Definition show_loading (s : AppState) : bool := loading s.

Definition show_end_message (s : AppState) : bool :=
  negb (hasMore s) && Nat.ltb 0 (List.length (companies s)).

Definition show_no_companies (s : AppState) : bool :=
  negb (loading s) && Nat.eqb (List.length (companies s)) 0.



Example resultsInfo_example :
  resultsInfo (setFilters (initial_state None) {| search := "acme"; location := "Berlin" |})
  = String.append "Showing results for "
      (String.append dquote (String.append "acme" (String.append dquote " in Berlin • 0 companies found"))).
Proof. reflexivity. Qed.

Example js_number_string_example : js_number_string 120 = "120".
Proof. reflexivity. Qed.

(** ** Properties of the home-page rendering *)


(** Filtering an [imap] whose predicate holds at no index. *)
Lemma filter_imap_none {A B : Type} (P : B -> bool) (l : list A) :
  forall (g : nat -> A -> B), (forall i x, P (g i x) = false) ->
  List.filter P (imap g l) = [].
Proof.
  induction l as [|x l IH]; intros g Hg; [reflexivity|].
  simpl. rewrite Hg. apply (IH (g ∘ S)). intros i y. apply Hg.
Qed.

(** Filtering an [imap] whose predicate holds exactly at index [k]. *)
Lemma filter_imap_eqb {A B : Type} (P : B -> bool) (l : list A) :
  forall (g : nat -> A -> B) (k : nat), (forall i x, P (g i x) = Nat.eqb i k) ->
  List.length (List.filter P (imap g l)) = (if Nat.ltb k (List.length l) then 1 else 0).
Proof.
  induction l as [|x l IH]; intros g k Hg; [destruct k; reflexivity|].
  simpl. rewrite Hg. destruct k as [|k'].
  - simpl. rewrite (filter_imap_none P l (g ∘ S)); [reflexivity|].
    intros i y. unfold compose. rewrite Hg. reflexivity.
  - simpl. rewrite (IH (g ∘ S) k'); [reflexivity|].
    intros i y. unfold compose. rewrite Hg. reflexivity.
Qed.

(** A non-empty list has exactly one card carrying the observer ref (the
    last one, by [render_cards_spec]); an empty list has none. *)
Theorem render_cards_one_ref (s : AppState) :
  List.length (List.filter card_has_ref (render_cards s))
  = (if Nat.eqb (List.length (companies s)) 0 then 0 else 1).
Proof.
  unfold render_cards.
  rewrite (filter_imap_eqb card_has_ref (companies s) _ (List.length (companies s) - 1));
    [|intros i x; reflexivity].
  destruct (List.length (companies s)) as [|n]; [reflexivity|].
  simpl. replace (n - 0) with n by lia. rewrite (proj2 (Nat.ltb_lt n (S n))) by lia. reflexivity.
Qed.

(** The "You've reached the end." message and "No companies found" are
    never shown together, nor are the loading indicator and "No companies
    found"; with an empty list and no load running, the latter is shown. *)
Theorem render_messages_exclusive (s : AppState) :
  negb (show_end_message s && show_no_companies s) = true
  /\ negb (show_loading s && show_no_companies s) = true
  /\ (companies s = [] -> loading s = false -> show_no_companies s = true).
Proof.
  unfold show_end_message, show_no_companies, show_loading.
  destruct (loading s), (hasMore s), (companies s); simpl; repeat split; intros; try reflexivity; discriminate.
Qed.


Lemma nat_digits_nonempty (fuel n : nat) (acc : string) :
  acc <> "" -> nat_digits fuel n acc <> "".
Proof.
  revert n acc. induction fuel as [|f IH]; intros n acc H; simpl; [exact H|].
  destruct (Nat.ltb n 10); [discriminate|]. apply IH. discriminate.
Qed.

Lemma js_number_string_nonempty (n : nat) : js_number_string n <> "".
Proof.
  unfold js_number_string. simpl. destruct (Nat.ltb n 10); [discriminate|].
  apply nat_digits_nonempty. discriminate.
Qed.

(** [resultsInfo] is never the empty string, so the label guarded by
    [resultsInfo && ...] on line 213 is always rendered; without filters it
    is the count followed by " companies", with a filter it starts with
    "Showing results for ". *)
Theorem resultsInfo_spec (s : AppState) :
  resultsInfo s <> ""
  /\ (search (filters s) = "" -> location (filters s) = "" ->
      resultsInfo s = String.append (js_number_string (List.length (companies s))) " companies")
  /\ (search (filters s) <> "" \/ location (filters s) <> "" ->
      exists rest, resultsInfo s = String.append "Showing results for " rest).
Proof.
  unfold resultsInfo. split; [|split].
  - destruct (truthy_string (search (filters s)) || truthy_string (location (filters s))).
    + discriminate.
    + pose proof (js_number_string_nonempty (List.length (companies s))) as H.
      destruct (js_number_string (List.length (companies s))); [contradiction|discriminate].
  - intros Hs Hl. rewrite Hs, Hl. reflexivity.
  - intros H. rewrite <- !truthy_string_true in H.
    destruct H as [H | H]; rewrite H; [|rewrite orb_true_r]; simpl; eexists; reflexivity.
Qed.

(** ** [trim] *)

Lemma drop_leading_space_head (l : list ascii) :
  match drop_leading_space l with [] => True | c :: _ => is_js_space c = false end.
Proof.
  induction l as [|c l IH]; simpl; [exact I|].
  destruct (is_js_space c) eqn:E; [exact IH | exact E].
Qed.

Lemma drop_leading_space_id (l : list ascii) :
  match l with [] => True | c :: _ => is_js_space c = false end ->
  drop_leading_space l = l.
Proof. destruct l as [|c l]; simpl; [reflexivity|]. intros ->. reflexivity. Qed.

Lemma drop_leading_space_snoc (l : list ascii) (x : ascii) :
  is_js_space x = false -> exists m, drop_leading_space (l ++ [x]) = m ++ [x].
Proof.
  intros Hx. induction l as [|c l IH]; simpl.
  - rewrite Hx. exists []. reflexivity.
  - destruct (is_js_space c); [exact IH|]. exists (c :: l). reflexivity.
Qed.

(** The trimmed value sent as [search] or [location] is a fixed point of
    [trim]: trimming twice is trimming once. *)
Theorem trim_idempotent (s : string) : trim (trim s) = trim s.
Proof.
  unfold trim. rewrite list_ascii_of_string_of_list_ascii.
  set (a := drop_leading_space (list_ascii_of_string s)).
  set (r := drop_leading_space (List.rev a)).
  assert (Hr : drop_leading_space (List.rev r) = List.rev r).
  { pose proof (drop_leading_space_head (list_ascii_of_string s)) as Ha. fold a in Ha.
    destruct a as [|c a'] eqn:Ea; [reflexivity|].
    subst r. simpl. destruct (drop_leading_space_snoc (List.rev a') c Ha) as [m Hm].
    rewrite Hm, rev_app_distr. simpl. rewrite Ha. reflexivity. }
  rewrite Hr, rev_involutive.
  rewrite (drop_leading_space_id r) by apply drop_leading_space_head.
  reflexivity.
Qed.

(** ** Properties of the event loop *)


(** With a user, bookmarking and then un-bookmarking an id that was not
    bookmarked restores the set; toggling to the same state twice is the
    same as once. *)
Theorem toggle_roundtrip (s : AppState) (u : User) (id : string) (st : bool) :
  user s = Some u ->
  (id ∉ bookmarkedIds s ->
   bookmarkedIds (handleBookmarkToggle id false (handleBookmarkToggle id true s)) = bookmarkedIds s)
  /\ handleBookmarkToggle id st (handleBookmarkToggle id st s) = handleBookmarkToggle id st s.
Proof.
  intros Hu. unfold handleBookmarkToggle. rewrite Hu. simpl. rewrite Hu. split.
  - intros Hn. set_solver.
  - unfold setBookmarkedIds. simpl. f_equal. destruct st; set_solver.
Qed.

Lemma toggle_roundtrip_witness :
  bookmarkedIds (handleBookmarkToggle "9" false (handleBookmarkToggle "9" true
     (setBookmarkedIds (initial_state (Some (mkUser "ada" ""))) {["7"]})))
  = bookmarkedIds (setBookmarkedIds (initial_state (Some (mkUser "ada" ""))) {["7"]}).
Proof.
  apply (toggle_roundtrip (setBookmarkedIds (initial_state (Some (mkUser "ada" ""))) {["7"]})
           (mkUser "ada" "") "9" true eq_refl). simpl. set_solver.
Defined.



(** Typing in the search box ([handleSearchChange]) issues no request and
    leaves the list and pagination alone: only the debounced value feeds
    the fetch. *)
Theorem search_input_no_fetch (s : AppState) (q : string) :
  let s' := step s (ESearchInput q) in
  pending s' = pending s /\ companies s' = companies s /\ cursor s' = cursor s
  /\ hasMore s' = hasMore s /\ search (filters s') = q
  /\ location (filters s') = location (filters s) /\ debouncedSearch s' = debouncedSearch s.
Proof.
  cbv zeta. unfold step. rewrite deps_changed_false by reflexivity.
  unfold commit, lastCompanyRef. simpl. destruct (loading s); simpl; auto 8.
Qed.

(** When the debounce timer settles on the value already in use, no
    request is issued. *)
Theorem debounce_same_value_no_fetch (s : AppState) :
  search (filters s) = debouncedSearch s ->
  pending (step s EDebounce) = pending s /\ cursor (step s EDebounce) = cursor s.
Proof.
  intros H. unfold step. rewrite deps_changed_false
    by (unfold filter_deps; simpl; rewrite H; reflexivity).
  unfold commit, lastCompanyRef. simpl. destruct (loading s); simpl; auto.
Qed.

Lemma debounce_same_value_no_fetch_witness :
  pending (step (mount None) EDebounce) = pending (mount None)
  /\ cursor (step (mount None) EDebounce) = cursor (mount None).
Proof. apply debounce_same_value_no_fetch. reflexivity. Defined.

(** The loading indicator is only shown while at least one
    [fetchCompanies] call is in flight. *)
Definition load_inv (s : AppState) : Prop := loading s = true -> pending s <> [].

Lemma begin_load_inv (c : FetchCall) (s : AppState) : load_inv (fetchCompanies_begin c s).
Proof. intros _. simpl. destruct (pending s); discriminate. Qed.

Lemma step_load_inv (s : AppState) (e : Event) : load_inv s -> load_inv (step s e).
Proof.
  intros H. unfold step.
  assert (H2 : load_inv (if deps_changed s (handle s e) then filter_effect (handle s e)
                         else handle s e)).
  { destruct (deps_changed s (handle s e)); [apply begin_load_inv|].
    destruct e; simpl; try exact H.
    - unfold on_intersect. destruct (observer_call s); [apply begin_load_inv | exact H].
    - destruct (pending s !! i); [|exact H].
      unfold fetchCompanies_settle. intros Hl. destruct o; discriminate Hl.
    - unfold handleBookmarkToggle. destruct (user s); exact H. }
  intros Hl. destruct (commit_fields (if deps_changed s (handle s e)
      then filter_effect (handle s e) else handle s e)) as (_ & C2 & _ & _ & C5 & _).
  rewrite C5. rewrite C2 in Hl. exact (H2 Hl).
Qed.

(** In every state reachable from mount, [loading] implies a request in
    flight. *)
Theorem loading_implies_in_flight (u : option User) (es : list Event) :
  load_inv (run (mount u) es).
Proof.
  assert (H0 : load_inv (mount u)) by (intros _; discriminate).
  revert H0. generalize (mount u). induction es as [|e es IH]; intros s H; simpl; [exact H|].
  apply IH. apply step_load_inv. exact H.
Qed.




(** At mount two identical reset calls [fetchCompanies(true, null, "", "")]
    are in flight (the filter effect and the initial load), the loading
    indicator is on, the list is empty and no observer can fire. *)
Theorem mount_state (u : option User) :
  let c0 := mkCall true None "" "" in
  pending (mount u) = [c0; c0] /\ loading (mount u) = true
  /\ companies (mount u) = [] /\ cursor (mount u) = None /\ hasMore (mount u) = true
  /\ observer_call (mount u) = None.
Proof. cbv zeta. repeat split. Qed.
